(** * The recommendation mixer of [recommendations_service.py]

    A shallow embedding of the class [RecommendationEngine]: its three
    lookup tables, the three table readers and [mix_recommendations],
    followed by the properties the design document states about them.
    The loader of the tables, the handler of [POST /recommend] and the
    runner of [test_service.py] are embedded as well, with further
    properties of the whole service at the end.

    Modelling conventions.
    - A pandas [DataFrame] is the list of its rows, in stored order; a
      boolean-mask selection [df[df[c] == v]] is an order-preserving
      [filter].
    - [DataFrame.head(n)] and the list slice [l[:n]] are the same Python
      slice, defined for every integer [n] (a negative [n] drops the last
      [-n] items).
    - Identifiers are strings, compared with [==]; counts are Python
      integers ([Z]); a Python [set] that is only asked for membership is a
      [gset].
    - Scores are finite numbers, embedded in [Q] (only their order is
      used).  Rows with a missing score are not modelled.
    - [DataFrame.sort_values(col, ascending=False)] is library code.  The
      service calls it with the default [kind], for which pandas promises a
      reordering of the rows with the column non-increasing and nothing
      about rows with equal keys.  It is taken as an interface
      ([SortValues]) with exactly that contract, so that what is proved
      holds whatever the routine does with rows of equal keys; a stable
      implementation is given below.
    - The engine's methods only read [self]; they are written in a small
      state monad over the engine so that this can be stated. *)

From Stdlib Require Import QArith.
From stdpp Require Import base decidable list strings gmap sorting pretty.

Close Scope Q_scope.
Local Open Scope Z_scope.
Local Open Scope nat_scope.
Local Open Scope list_scope.

(** ** Tables *)

Module Personal.
Record row := Row { user_id : string; track_id : string; score : Q }.
End Personal.

Module Similar.
Record row :=
  Row { track_id : string; similar_track_id : string; similarity_score : Q }.
End Similar.

Module Popular.
Record row := Row { track_id : string; popularity_score : Q }.
End Popular.

(** [self.personal_recs], [self.similar_tracks], [self.top_popular]. *)
Record RecommendationEngine := Engine {
  personal_recs : list Personal.row;
  similar_tracks : list Similar.row;
  top_popular : list Popular.row
}.

(** ** Python slices *)

(** [l[:n]]: the first [n] items, or all but the last [-n] when [n < 0]. *)
Definition slice_to {A} (n : Z) (l : list A) : list A :=
  if decide (0 ≤ n)%Z then take (Z.to_nat n) l
  else take (length l - Z.to_nat (- n)) l.

Module DataFrame.
(** [df.head(n)] is [df.iloc[:n]]. *)
Definition head {A} (n : Z) (df : list A) : list A := slice_to n df.
End DataFrame.

(** ** The sorting interface *)

Definition desc_by {A} (key : A → Q) (a b : A) : Prop := (key b <= key a)%Q.

(** [df.sort_values(key, ascending=False)]: some rearrangement of the rows
    in which the key never increases. *)
Class SortValues := {
  sort_values : ∀ {A}, (A → Q) → list A → list A;
  sort_values_perm : ∀ A (key : A → Q) (df : list A), sort_values key df ≡ₚ df;
  sort_values_sorted : ∀ A (key : A → Q) (df : list A),
    StronglySorted (desc_by key) (sort_values key df)
}.

(** Insertion of [x] in a sorted list, in front of the first [y] at which
    [stop x y] holds. *)
Fixpoint insert_at {A} (stop : A → A → bool) (x : A) (l : list A) : list A :=
  match l with
  | [] => [x]
  | y :: l' => if stop x y then x :: y :: l' else y :: insert_at stop x l'
  end.

Definition insertion_sort {A} (stop : A → A → bool) (l : list A) : list A :=
  foldr (insert_at stop) [] l.

(** Ties keep the stored order: [x], which comes first, stops at the first
    row whose key is not larger. *)
Definition stop_stable {A} (key : A → Q) (x y : A) : bool :=
  Qle_bool (key y) (key x).

Definition stable_sort_desc {A} (key : A → Q) (l : list A) : list A :=
  insertion_sort (stop_stable key) l.

(** ** The engine monad *)

Definition M (A : Type) : Type := RecommendationEngine → A * RecommendationEngine.

#[export] Instance M_ret : MRet M := λ A a self, (a, self).
#[export] Instance M_bind : MBind M :=
  λ A B f m self, let '(a, self') := m self in f a self'.

(** Reading an attribute of [self]. *)
Definition gets {A} (attr : RecommendationEngine → A) : M A :=
  λ self, (attr self, self).

(** The value a method returns, and the engine it leaves. *)
Definition eval {A} (m : M A) (self : RecommendationEngine) : A := fst (m self).
Definition exec {A} (m : M A) (self : RecommendationEngine) : RecommendationEngine :=
  snd (m self).

(** [for x in l: acc = body(acc, x)]. *)
Fixpoint for_each {A S} (body : S → A → M S) (acc : S) (l : list A) : M S :=
  match l with
  | [] => mret acc
  | x :: l' => acc' ← body acc x; for_each body acc' l'
  end.

(** ** The steps of [mix_recommendations] on plain lists *)

(** The candidate list: personal, then similar-to-history when there is a
    history, then the popular tracks not yet listed when the list is
    still shorter than requested. *)
Definition all_recommendations (personal similar_online top_popular : list string)
    (online_history : list string) (n_recommendations : Z) : list string :=
  let all0 := [] ++ personal in
  let all1 := if decide (online_history ≠ []) then all0 ++ similar_online else all0 in
  if decide (Z.of_nat (length all1) < n_recommendations)%Z
  then all1 ++ filter (λ track, track ∉ all1) top_popular
  else all1.

(** One turn of the deduplication loop on [(seen, unique_recommendations)]. *)
Definition dedup_step (st : gset string * list string) (track : string)
  : gset string * list string :=
  if decide (track ∈ st.1) then st
  else ({[track]} ∪ st.1, st.2 ++ [track]).

Definition unique_recommendations (all : list string) : list string :=
  (foldl dedup_step (∅, []) all).2.

Definition final_recommendations (unique : list string)
    (online_history : list string) : list string :=
  let history_set : gset string := list_to_set online_history in
  filter (λ track, track ∉ history_set) unique.

Definition strategy (online_history personal : list string) : string :=
  if decide (online_history ≠ [] ∧ personal ≠ []) then "online_history + personal"%string
  else if decide (online_history ≠ []) then "online_history + top_popular"%string
  else if decide (personal ≠ []) then "personal_only"%string
  else "top_popular_only"%string.

(** ** The engine's methods *)

Section Engine.
Context `{SortValues}.

Definition get_personal_recommendations (user_id : string) (n : Z)
  : M (list string) :=
  table ← gets personal_recs;
  let user_recs :=
    sort_values Personal.score
      (filter (λ r, Personal.user_id r = user_id) table) in
  if decide (length user_recs = 0) then mret []
  else mret (Personal.track_id <$> DataFrame.head n user_recs).

(** One turn of the loop over the seeds. *)
Definition similar_step (n_per_track : Z) (similar_list : list string)
    (track_id : string) : M (list string) :=
  table ← gets similar_tracks;
  let track_similar :=
    sort_values Similar.similarity_score
      (filter (λ r, Similar.track_id r = track_id) table) in
  if decide (0 < length track_similar)
  then mret (similar_list ++
               (Similar.similar_track_id <$> DataFrame.head n_per_track track_similar))
  else mret similar_list.

Definition get_similar_tracks (track_ids : list string) (n_per_track : Z)
  : M (list string) :=
  if decide (track_ids = []) then mret []
  else for_each (similar_step n_per_track) [] track_ids.

Definition get_top_popular (n : Z) : M (list string) :=
  table ← gets top_popular;
  mret (Popular.track_id <$> DataFrame.head n table).

Definition mix_recommendations (user_id : string) (online_history : list string)
    (n_recommendations : Z) : M (list string * string) :=
  personal ← get_personal_recommendations user_id n_recommendations;
  similar_online ← get_similar_tracks online_history 2;
  top_popular ← get_top_popular (n_recommendations * 2);
  let all := all_recommendations personal similar_online top_popular
               online_history n_recommendations in
  let unique := unique_recommendations all in
  let final := final_recommendations unique online_history in
  mret (slice_to n_recommendations final, strategy online_history personal).

End Engine.

(** ** Reference definitions used in the statements *)

(** Deduplication as the design document words it: each track is kept at
    its first position only. *)
Fixpoint first_occurrences (l : list string) : list string :=
  match l with
  | [] => []
  | x :: l' => x :: filter (λ y, y ≠ x) (first_occurrences l')
  end.

(** The decision table of the design document for the strategy label, on
    the two flags "history non-empty" and "personal non-empty". *)
Definition strategy_table (has_history has_personal : bool) : string :=
  match has_history, has_personal with
  | true, true => "online_history + personal"%string
  | true, false => "online_history + top_popular"%string
  | false, true => "personal_only"%string
  | false, false => "top_popular_only"%string
  end.

Definition nonempty {A} (l : list A) : bool :=
  match l with [] => false | _ :: _ => true end.

(** The mask selections of the two readers: the rows of a user, and the
    edges of a seed, in stored order. *)
Definition user_rows (self : RecommendationEngine) (user_id : string)
  : list Personal.row :=
  filter (λ r, Personal.user_id r = user_id) (personal_recs self).

Definition seed_rows (self : RecommendationEngine) (track_id : string)
  : list Similar.row :=
  filter (λ r, Similar.track_id r = track_id) (similar_tracks self).

(** What one turn of the loop of [get_similar_tracks] appends for a seed. *)
Definition seed_contribution `{SortValues} (self : RecommendationEngine)
    (n_per_track : Z) (track_id : string) : list string :=
  Similar.similar_track_id <$>
    DataFrame.head n_per_track
      (sort_values Similar.similarity_score (seed_rows self track_id)).

(** ** Rows with equal scores *)

#[local] Instance Qeq_decision (x y : Q) : Decision (x == y)%Q := Qeq_dec x y.

(** Rows with the same key come out in the order in which they are stored. *)
Definition ties_in_stored_order {A} (key : A → Q) (df sorted : list A) : Prop :=
  ∀ s : Q, filter (λ r, (key r == s)%Q) sorted = filter (λ r, (key r == s)%Q) df.



(** The tracks listed before the popularity tier is looked at. *)
Definition listed (personal similar_online online_history : list string)
  : list string :=
  if decide (online_history ≠ []) then personal ++ similar_online else personal.

(** ** Concrete tables *)

(** Two seeds with one edge each. *)
Definition engine_two_seeds : RecommendationEngine := {|
  personal_recs := [];
  similar_tracks := [Similar.Row "a" "b" (8#10); Similar.Row "d" "c" (5#10)];
  top_popular := []
|}.

(** Only a popularity table, of three tracks. *)
Definition engine_popular_abc : RecommendationEngine := {|
  personal_recs := [];
  similar_tracks := [];
  top_popular := [Popular.Row "a" 3; Popular.Row "b" 2; Popular.Row "c" 1]
|}.

(** A popularity table that lists the same track twice. *)
Definition engine_popular_twice : RecommendationEngine := {|
  personal_recs := [];
  similar_tracks := [];
  top_popular := [Popular.Row "c" 2; Popular.Row "c" 1]
|}.

(** One seed with two edges. *)
Definition engine_one_seed : RecommendationEngine := {|
  personal_recs := [];
  similar_tracks := [Similar.Row "a" "b" (8#10); Similar.Row "a" "c" (3#10)];
  top_popular := []
|}.

(** One personal track, which the user has just played, and one popular
    track. *)
Definition engine_played : RecommendationEngine := {|
  personal_recs := [Personal.Row "u" "t1" (9#10)];
  similar_tracks := [];
  top_popular := [Popular.Row "p1" 1]
|}.

(** The scenario tables of the design document. *)
Definition engine_scenario_personal : RecommendationEngine := {|
  personal_recs := [Personal.Row "u1" "t1" (9#10); Personal.Row "u1" "t2" (5#10)];
  similar_tracks := [];
  top_popular := [Popular.Row "t2" 9; Popular.Row "p1" 8; Popular.Row "p2" 7;
                  Popular.Row "p3" 6; Popular.Row "p4" 5]
|}.

Definition engine_scenario_online : RecommendationEngine := {|
  personal_recs := [];
  similar_tracks := [Similar.Row "t5" "t6" (8#10); Similar.Row "t5" "t7" (3#10)];
  top_popular := [Popular.Row "t5" 9; Popular.Row "p1" 8; Popular.Row "t6" 7;
                  Popular.Row "p2" 6]
|}.

Definition engine_empty : RecommendationEngine :=
  {| personal_recs := []; similar_tracks := []; top_popular := [] |}.

(** Closed goals on concrete tables are settled by evaluation. *)
Ltac by_evaluation :=
  vm_compute;
  first [ reflexivity
        | discriminate
        | let Hn := fresh in intros Hn; first [discriminate Hn | apply Hn; reflexivity] ].

(** ** Loading the tables *)

(** What a call that may raise gives back. *)
Inductive outcome (A : Type) : Type :=
  | Returned (a : A)
  | Raised.
Arguments Returned {A} a.
Arguments Raised {A}.

(** The frames as [pd.read_parquet] returns them.  An identifier column
    holds integers or strings; the [user_id] column, which the loader
    leaves as it is and the engine compares with the request's string, is
    taken to hold strings. *)
Module Raw.
Inductive id : Type :=
  | Int (i : Z)
  | Str (s : string).
Record personal_row := PersonalRow { user_id : string; track_id : id; score : Q }.
Record similar_row :=
  SimilarRow { seed_id : id; similar_track_id : id; similarity_score : Q }.
Record popular_row := PopularRow { popular_id : id; popularity_score : Q }.
End Raw.

(** [column.astype(str)] on one value: [str(i)] for an integer. *)
Definition astype_str (x : Raw.id) : string :=
  match x with
  | Raw.Int i => pretty i
  | Raw.Str s => s
  end.

Definition personal_astype (r : Raw.personal_row) : Personal.row :=
  Personal.Row (Raw.user_id r) (astype_str (Raw.track_id r)) (Raw.score r).

Definition similar_astype (r : Raw.similar_row) : Similar.row :=
  Similar.Row (astype_str (Raw.seed_id r)) (astype_str (Raw.similar_track_id r))
    (Raw.similarity_score r).

Definition popular_astype (r : Raw.popular_row) : Popular.row :=
  Popular.Row (astype_str (Raw.popular_id r)) (Raw.popularity_score r).

(** [load_recommendation_data]: the three reads, then the conversions; any
    exception on the way gives three empty frames. *)
Definition load_recommendation_data
    (personal_als : outcome (list Raw.personal_row))
    (similar : outcome (list Raw.similar_row))
    (top_popular : outcome (list Raw.popular_row))
  : list Personal.row * list Similar.row * list Popular.row :=
  match personal_als with
  | Raised => ([], [], [])
  | Returned personal_recs =>
    match similar with
    | Raised => ([], [], [])
    | Returned similar_tracks =>
      match top_popular with
      | Raised => ([], [], [])
      | Returned top =>
        (personal_astype <$> personal_recs,
         similar_astype <$> similar_tracks,
         popular_astype <$> top)
      end
    end
  end.

(** The module-level [engine]: the engine built on what the loader returns. *)
Definition engine
    (personal_als : outcome (list Raw.personal_row))
    (similar : outcome (list Raw.similar_row))
    (top_popular : outcome (list Raw.popular_row)) : RecommendationEngine :=
  let '(personal_recs, similar_tracks, top) :=
    load_recommendation_data personal_als similar top_popular in
  Engine personal_recs similar_tracks top.

(** ** The request handler *)

Module Request.
(** [RecommendationRequest]; [online_history] is [Optional[List[str]]]. *)
Record model := Make {
  user_id : string;
  online_history : option (list string);
  n_recommendations : Z
}.
End Request.

Module Response.
(** [RecommendationResponse]. *)
Record model := Make {
  user_id : string;
  recommendations : list string;
  strategy : string;
  timestamp : string
}.
End Response.

(** What the handler gives back: the response model, or the
    [HTTPException] it raises. *)
Inductive http_result : Type :=
  | Ok (body : Response.model)
  | HTTPException (status_code : Z) (detail : string).

(** The text of the [TypeError] that [len(None)] raises. *)
Definition len_of_None : string := "object of type 'NoneType' has no len()".

(** The handler of [POST /recommend].  [now] is [datetime.now().isoformat()].
    The [logger] calls are left out, but not the evaluation of
    [len(request.online_history)] in the first one, which raises on [None];
    every exception of the [try] block becomes an [HTTPException] with
    status 500 and the exception's text. *)
Definition get_recommendations `{SortValues} (now : string) (request : Request.model)
  : M http_result :=
  match Request.online_history request with
  | None => mret (HTTPException 500 len_of_None)
  | Some online_history =>
    result ← mix_recommendations (Request.user_id request) online_history
               (Request.n_recommendations request);
    mret (Ok (Response.Make (Request.user_id request) result.1 result.2 now))
  end.

(** ** The test runner of [test_service.py] *)

(** The summary at the end of [run_all_tests]: the run succeeds when the
    number of successful results is the number of results. *)
Definition all_passed (results : list (string * bool)) : bool :=
  let success_count := length (filter (λ r, r.2 = true) results) in
  let total_count := length results in
  bool_decide (success_count = total_count).

Section Runner.
(** The service as the runner sees it: each probe answers and may change
    the world. *)
Context {World : Type}.
Context (health_check
         test_user_without_personal_recommendations
         test_user_with_personal_no_online_history
         test_user_with_personal_and_online_history : World → bool * World).

Definition run_all_tests (w : World) : bool * World :=
  let '(up, w) := health_check w in
  if negb up then (false, w)
  else
    let '(r0, w) := health_check w in
    let '(r1, w) := test_user_without_personal_recommendations w in
    let '(r2, w) := test_user_with_personal_no_online_history w in
    let '(r3, w) := test_user_with_personal_and_online_history w in
    let results :=
      [("Health Check"%string, r0);
       ("User without personal recommendations"%string, r1);
       ("User with personal, no online history"%string, r2);
       ("User with personal and online history"%string, r3)] in
    (all_passed results, w).
End Runner.

(** ** A stable implementation of the sorting interface *)

Section InsertionSort.
Context {A : Type} (key : A → Q) (stop : A → A → bool).
Hypothesis stop_true : ∀ x y, stop x y = true → desc_by key x y.
Hypothesis stop_false : ∀ x y, stop x y = false → desc_by key y x.

Lemma insert_at_perm (x : A) (l : list A) : insert_at stop x l ≡ₚ x :: l.
Proof using Type.
  induction l as [|y l IH]; simpl; [done|].
  destruct (stop x y); [done|].
  rewrite IH. apply Permutation_swap.
Qed.

Lemma insertion_sort_perm (l : list A) : insertion_sort stop l ≡ₚ l.
Proof using Type.
  induction l as [|x l IH]; simpl; [done|].
  rewrite insert_at_perm. by rewrite IH.
Qed.

Lemma desc_by_trans (x y z : A) : desc_by key x y → desc_by key y z → desc_by key x z.
Proof using Type. unfold desc_by. intros Hxy Hyz. by eapply Qle_trans. Qed.

Lemma insert_at_sorted (x : A) (l : list A) :
  StronglySorted (desc_by key) l →
  StronglySorted (desc_by key) (insert_at stop x l).
Proof using stop_true stop_false.
  induction 1 as [|y l Hl IH Hy]; simpl.
  - repeat constructor.
  - destruct (stop x y) eqn:E.
    + constructor; [by constructor|].
      constructor; [by apply stop_true|].
      eapply Forall_impl; [exact Hy|].
      intros z Hz. eapply desc_by_trans; [by apply stop_true|done].
    + constructor; [done|].
      rewrite insert_at_perm. constructor; [by apply stop_false|done].
Qed.

Lemma insertion_sort_sorted (l : list A) :
  StronglySorted (desc_by key) (insertion_sort stop l).
Proof using stop_true stop_false.
  induction l as [|x l IH]; simpl; [constructor|].
  by apply insert_at_sorted.
Qed.
End InsertionSort.

Lemma stop_stable_true {A} (key : A → Q) x y :
  stop_stable key x y = true → desc_by key x y.
Proof. unfold stop_stable, desc_by. by rewrite Qle_bool_iff. Qed.

Lemma stop_stable_false {A} (key : A → Q) x y :
  stop_stable key x y = false → desc_by key y x.
Proof.
  unfold stop_stable, desc_by. intros E.
  apply Qlt_le_weak, Qnot_le_lt. rewrite <- Qle_bool_iff. by rewrite E.
Qed.

(** A stable descending sort (what [kind='stable'] would give). *)
Definition stable_sort_values : SortValues := {|
  sort_values A key df := stable_sort_desc key df;
  sort_values_perm A key df := insertion_sort_perm (stop_stable key) df;
  sort_values_sorted A key df :=
    insertion_sort_sorted key (stop_stable key)
      (stop_stable_true key) (stop_stable_false key) df
|}.

(** ** Slices *)

Lemma slice_to_nonneg {A} (n : Z) (l : list A) :
  (0 ≤ n)%Z → slice_to n l = take (Z.to_nat n) l.
Proof. intros Hn. unfold slice_to. by rewrite decide_True. Qed.

Lemma slice_to_nil {A} (n : Z) : slice_to n (@nil A) = [].
Proof. unfold slice_to. case_decide; by rewrite take_nil. Qed.

Lemma slice_to_sublist {A} (n : Z) (l : list A) : slice_to n l `sublist_of` l.
Proof. unfold slice_to. case_decide; apply sublist_take. Qed.

Lemma length_slice_to_nonneg {A} (n : Z) (l : list A) :
  (0 ≤ n)%Z → (Z.of_nat (length (slice_to n l)) ≤ n)%Z.
Proof. intros Hn. rewrite slice_to_nonneg, length_take by done. lia. Qed.

Lemma length_slice_to_le {A} (n : Z) (l : list A) :
  length (slice_to n l) ≤ length l.
Proof. unfold slice_to. case_decide; rewrite length_take; lia. Qed.

(** ** Sorting leaves the empty and the one-row frame alone *)

Section SortFacts.
Context `{SortValues}.

Lemma sort_values_nil {A} (key : A → Q) : sort_values key [] = [].
Proof. apply Permutation_nil_r, sort_values_perm. Qed.

Lemma sort_values_singleton {A} (key : A → Q) (x : A) :
  sort_values key [x] = [x].
Proof. apply Permutation_singleton_r, sort_values_perm. Qed.

Lemma length_sort_values {A} (key : A → Q) (l : list A) :
  length (sort_values key l) = length l.
Proof. apply Permutation_length, sort_values_perm. Qed.
End SortFacts.

(** ** What the methods return, and in which state they leave the engine *)

Section Runs.
Context `{SortValues}.

Lemma get_personal_recommendations_run user_id n self :
  get_personal_recommendations user_id n self =
  (Personal.track_id <$>
     DataFrame.head n (sort_values Personal.score (user_rows self user_id)),
   self).
Proof.
  unfold get_personal_recommendations, user_rows, mbind, M_bind, gets, mret, M_ret.
  case_decide as Hlen; [|done].
  apply nil_length_inv in Hlen. rewrite Hlen.
  unfold DataFrame.head. by rewrite slice_to_nil.
Qed.

Lemma similar_step_run n_per_track acc track_id self :
  similar_step n_per_track acc track_id self =
  (acc ++ seed_contribution self n_per_track track_id, self).
Proof.
  unfold similar_step, seed_contribution, seed_rows, mbind, M_bind, gets, mret, M_ret.
  case_decide as Hlen; [done|].
  assert (Hnil : length (sort_values Similar.similarity_score
    (filter (λ r, Similar.track_id r = track_id) (similar_tracks self))) = 0) by lia.
  apply nil_length_inv in Hnil. rewrite Hnil.
  unfold DataFrame.head. rewrite slice_to_nil. simpl. by rewrite app_nil_r.
Qed.

Lemma for_each_similar_step_run n_per_track track_ids acc self :
  for_each (similar_step n_per_track) acc track_ids self =
  (acc ++ concat (seed_contribution self n_per_track <$> track_ids), self).
Proof.
  revert acc. induction track_ids as [|t l IH]; intros acc; simpl.
  - by rewrite app_nil_r.
  - unfold mbind, M_bind. rewrite similar_step_run, IH.
    by rewrite <- app_assoc.
Qed.

Lemma get_similar_tracks_run track_ids n_per_track self :
  get_similar_tracks track_ids n_per_track self =
  (concat (seed_contribution self n_per_track <$> track_ids), self).
Proof.
  unfold get_similar_tracks. case_decide as Hnil.
  - by rewrite Hnil.
  - by rewrite for_each_similar_step_run.
Qed.

Lemma get_top_popular_run n self :
  get_top_popular n self =
  (Popular.track_id <$> DataFrame.head n (top_popular self), self).
Proof. done. Qed.

Lemma mix_recommendations_run user_id online_history n self :
  mix_recommendations user_id online_history n self =
  (let personal := eval (get_personal_recommendations user_id n) self in
   let similar_online := eval (get_similar_tracks online_history 2) self in
   let top := eval (get_top_popular (n * 2)) self in
   (slice_to n
      (final_recommendations
         (unique_recommendations
            (all_recommendations personal similar_online top online_history n))
         online_history),
    strategy online_history personal),
   self).
Proof.
  unfold mix_recommendations, eval, mbind, M_bind.
  rewrite get_personal_recommendations_run, get_similar_tracks_run,
    get_top_popular_run.
  done.
Qed.
End Runs.

(** ** The deduplication loop *)

Lemma filter_first_occurrences (P : string → Prop) `{!∀ x, Decision (P x)}
    (l : list string) :
  first_occurrences (filter P l) = filter P (first_occurrences l).
Proof.
  induction l as [|x l IH]; [done|].
  destruct (decide (P x)) as [HP|HP].
  - rewrite filter_cons_True by done. simpl.
    rewrite filter_cons_True by done. f_equal.
    rewrite IH, !list_filter_filter. apply list_filter_iff. tauto.
  - rewrite filter_cons_False by done. simpl.
    rewrite filter_cons_False by done.
    rewrite IH, list_filter_filter. apply list_filter_iff.
    intros y. split; [|tauto]. intros Hy. split; [done|congruence].
Qed.

Lemma elem_of_first_occurrences (x : string) (l : list string) :
  x ∈ first_occurrences l ↔ x ∈ l.
Proof.
  induction l as [|y l IH]; simpl; [done|].
  rewrite !elem_of_cons, list_elem_of_filter, IH.
  destruct (decide (x = y)); tauto.
Qed.

Lemma NoDup_first_occurrences (l : list string) : NoDup (first_occurrences l).
Proof.
  induction l as [|x l IH]; simpl; [constructor|].
  apply NoDup_cons. split; [|by apply NoDup_filter].
  rewrite list_elem_of_filter. tauto.
Qed.

Lemma first_occurrences_sublist (l : list string) :
  first_occurrences l `sublist_of` l.
Proof.
  induction l as [|x l IH]; simpl; [done|].
  apply sublist_skip. etrans; [apply sublist_filter|done].
Qed.

(** The loop started from [(seen, unique)] appends to [unique] the first
    occurrences of the tracks that are not yet [seen]. *)
Lemma foldl_dedup_step (l : list string) (seen : gset string) (unique : list string) :
  (foldl dedup_step (seen, unique) l).2 =
  unique ++ first_occurrences (filter (λ x, x ∉ seen) l).
Proof.
  revert seen unique. induction l as [|x l IH]; intros seen unique; simpl.
  - by rewrite app_nil_r.
  - unfold dedup_step at 2. simpl. case_decide as Hx.
    + rewrite IH, filter_cons_False; [done|]. by intros Hn.
    + rewrite IH, filter_cons_True by done. simpl.
      rewrite <- app_assoc. simpl. do 2 f_equal.
      rewrite <- filter_first_occurrences, list_filter_filter.
      f_equal. apply list_filter_iff. intros y.
      rewrite not_elem_of_union, not_elem_of_singleton. tauto.
Qed.

Lemma unique_recommendations_first_occurrences (all : list string) :
  unique_recommendations all = first_occurrences all.
Proof.
  unfold unique_recommendations. rewrite foldl_dedup_step. simpl.
  f_equal. induction all as [|x l IH]; [done|].
  rewrite filter_cons_True by set_solver. by rewrite IH.
Qed.

Lemma final_recommendations_filter (unique online_history : list string) :
  final_recommendations unique online_history =
  filter (λ track, track ∉ online_history) unique.
Proof.
  unfold final_recommendations. apply list_filter_iff.
  intros x. by rewrite elem_of_list_to_set.
Qed.

Lemma strategy_strategy_table (online_history personal : list string) :
  strategy online_history personal =
  strategy_table (nonempty online_history) (nonempty personal).
Proof.
  unfold strategy.
  destruct online_history, personal; simpl;
    repeat destruct (decide _) as [?|?]; try done; exfalso; tauto.
Qed.

(** ** Properties of [mix_recommendations] *)

Section Mix.
Context `{SortValues}.

(** C1. The strategy label returned by [mix_recommendations] is the entry of
    the decision table at (history non-empty?, personal result non-empty?);
    nothing else about the call enters it. *)
Theorem mix_strategy_decision_table
    (self : RecommendationEngine) (user_id : string)
    (online_history : list string) (n_recommendations : Z) :
  (eval (mix_recommendations user_id online_history n_recommendations) self).2 =
  strategy_table (nonempty online_history)
    (nonempty (eval (get_personal_recommendations user_id n_recommendations) self)).
Proof.
  unfold eval at 1. rewrite mix_recommendations_run. simpl.
  apply strategy_strategy_table.
Qed.

(** C3. No track of the returned list is in [online_history]. *)
Theorem mix_no_history_leak
    (self : RecommendationEngine) (user_id : string)
    (online_history : list string) (n_recommendations : Z) :
  Forall (λ track, track ∉ online_history)
    (eval (mix_recommendations user_id online_history n_recommendations) self).1.
Proof.
  unfold eval at 1. rewrite mix_recommendations_run. simpl.
  rewrite final_recommendations_filter.
  eapply Forall_forall. intros x Hx.
  eapply sublist_subseteq in Hx; [|apply slice_to_sublist].
  by apply list_elem_of_filter in Hx as [? _].
Qed.

(** C4. The returned tracks are pairwise distinct, and the list is the
    candidate list with each track kept at its first position only, then
    without the history, then cut to the requested length. *)
Theorem mix_no_duplicates_first_kept
    (self : RecommendationEngine) (user_id : string)
    (online_history : list string) (n_recommendations : Z) :
  let personal := eval (get_personal_recommendations user_id n_recommendations) self in
  let similar_online := eval (get_similar_tracks online_history 2) self in
  let top := eval (get_top_popular (n_recommendations * 2)) self in
  let candidates :=
    all_recommendations personal similar_online top online_history n_recommendations in
  let result :=
    (eval (mix_recommendations user_id online_history n_recommendations) self).1 in
  NoDup result ∧
  unique_recommendations candidates = first_occurrences candidates ∧
  result = slice_to n_recommendations
             (filter (λ track, track ∉ online_history) (first_occurrences candidates)).
Proof.
  intros personal similar_online top candidates result.
  assert (Hres : result = slice_to n_recommendations
             (filter (λ track, track ∉ online_history) (first_occurrences candidates))).
  { unfold result, eval at 1. rewrite mix_recommendations_run. simpl.
    by rewrite final_recommendations_filter, unique_recommendations_first_occurrences. }
  split; [|split; [apply unique_recommendations_first_occurrences|done]].
  rewrite Hres. eapply sublist_NoDup; [|apply slice_to_sublist].
  apply NoDup_filter, NoDup_first_occurrences.
Qed.

End Mix.

(** ** Length of the result *)

Section Length.
Context `{SortValues}.

(** C2 (as amended). For a non-negative [n_recommendations] the returned list
    has at most [n_recommendations] tracks; in particular it is empty for
    [n_recommendations = 0]. *)
Theorem mix_length_bound
    (self : RecommendationEngine) (user_id : string)
    (online_history : list string) (n_recommendations : Z) :
  (0 ≤ n_recommendations)%Z →
  (Z.of_nat (length
     (eval (mix_recommendations user_id online_history n_recommendations) self).1)
   ≤ n_recommendations)%Z.
Proof.
  intros Hn. unfold eval. rewrite mix_recommendations_run. simpl.
  by apply length_slice_to_nonneg.
Qed.

Lemma mix_zero_is_empty
    (self : RecommendationEngine) (user_id : string) (online_history : list string) :
  (eval (mix_recommendations user_id online_history 0) self).1 = [].
Proof.
  unfold eval. rewrite mix_recommendations_run. simpl.
  by rewrite slice_to_nonneg.
Qed.

End Length.

(** ** The popularity fallback *)

Lemma filter_not_elem_of_nil (l : list string) :
  filter (λ track, track ∉ @nil string) l = l.
Proof.
  induction l as [|x l IH]; [done|].
  rewrite filter_cons_True by apply not_elem_of_nil. by rewrite IH.
Qed.

(** With nothing personal and nothing similar the candidates are the
    popularity pool when something is requested, and nothing otherwise. *)
Lemma all_recommendations_fallback (top online_history : list string) (n : Z) :
  all_recommendations [] [] top online_history n =
  if decide (0 < n)%Z then top else [].
Proof.
  unfold all_recommendations. simpl.
  destruct (decide (online_history ≠ [])); simpl;
    by rewrite filter_not_elem_of_nil.
Qed.

Section Fallback.
Context `{SortValues}.

(** C5 (as amended). When the personal and the similar-to-history results
    are both empty, [n_recommendations] is non-negative, and the first
    [2 * n_recommendations] rows of the popularity table hold at least
    [n_recommendations] distinct tracks outside the history, the result is
    exactly the first [n_recommendations] of those tracks, in table order. *)
Theorem mix_fallback_completeness
    (self : RecommendationEngine) (user_id : string)
    (online_history : list string) (n_recommendations : Z) :
  let pool :=
    filter (λ track, track ∉ online_history)
      (first_occurrences
         (Popular.track_id <$>
            DataFrame.head (n_recommendations * 2) (top_popular self))) in
  let result :=
    (eval (mix_recommendations user_id online_history n_recommendations) self).1 in
  eval (get_personal_recommendations user_id n_recommendations) self = [] →
  eval (get_similar_tracks online_history 2) self = [] →
  (0 ≤ n_recommendations)%Z →
  (n_recommendations ≤ Z.of_nat (length pool))%Z →
  result = take (Z.to_nat n_recommendations) pool ∧
  Z.of_nat (length result) = n_recommendations.
Proof.
  intros pool result Hpersonal Hsimilar Hn Hpool.
  assert (Hres : result = take (Z.to_nat n_recommendations) pool).
  { unfold result, eval at 1. rewrite mix_recommendations_run. simpl.
    rewrite Hpersonal, Hsimilar, all_recommendations_fallback.
    rewrite final_recommendations_filter, unique_recommendations_first_occurrences.
    rewrite slice_to_nonneg by done.
    case_decide as Hpos; [done|].
    replace n_recommendations with 0%Z by lia. by rewrite !take_0. }
  split; [done|]. rewrite Hres, length_take. lia.
Qed.

End Fallback.

(** ** [get_similar_tracks], seed by seed *)

Section SimilarTracks.
Context `{SortValues}.

Lemma seed_contribution_no_rows self n_per_track track_id :
  seed_rows self track_id = [] → seed_contribution self n_per_track track_id = [].
Proof.
  intros Hrows. unfold seed_contribution, DataFrame.head.
  by rewrite Hrows, sort_values_nil, slice_to_nil.
Qed.

Lemma length_seed_contribution self n_per_track track_id :
  (0 ≤ n_per_track)%Z →
  (Z.of_nat (length (seed_contribution self n_per_track track_id)) ≤ n_per_track)%Z.
Proof.
  intros Hn. unfold seed_contribution, DataFrame.head.
  rewrite length_fmap. by apply length_slice_to_nonneg.
Qed.

Lemma length_concat_seed_contribution self n_per_track track_ids :
  (0 ≤ n_per_track)%Z →
  (Z.of_nat (length (concat (seed_contribution self n_per_track <$> track_ids)))
   ≤ Z.of_nat (length track_ids) * n_per_track)%Z.
Proof.
  intros Hn. induction track_ids as [|t l IH]; [simpl; lia|].
  rewrite fmap_cons, concat_cons, length_app, length_cons.
  pose proof (length_seed_contribution self n_per_track t Hn). nia.
Qed.

(** The seeds are processed one after the other, none is skipped. *)
Lemma get_similar_tracks_app self n_per_track (seeds1 seeds2 : list string) :
  eval (get_similar_tracks (seeds1 ++ seeds2) n_per_track) self =
  eval (get_similar_tracks seeds1 n_per_track) self ++
  eval (get_similar_tracks seeds2 n_per_track) self.
Proof.
  unfold eval. rewrite !get_similar_tracks_run. simpl.
  by rewrite fmap_app, concat_app.
Qed.

(** C7 (as amended). For every [n_per_track], [get_similar_tracks] returns,
    seed after seed in the order of [track_ids], the similar tracks of the
    first [n_per_track] edges of the seed sorted by similarity; a seed
    without edges adds nothing and the following seeds are still processed.
    For a non-negative [n_per_track] the length is at most
    [len(track_ids) * n_per_track]. *)
Theorem get_similar_tracks_per_seed
    (self : RecommendationEngine) (track_ids : list string) (n_per_track : Z) :
  let result := eval (get_similar_tracks track_ids n_per_track) self in
  result =
    concat ((λ seed, Similar.similar_track_id <$>
               DataFrame.head n_per_track
                 (sort_values Similar.similarity_score (seed_rows self seed)))
            <$> track_ids)
  ∧ ((0 ≤ n_per_track)%Z →
     (Z.of_nat (length result) ≤ Z.of_nat (length track_ids) * n_per_track)%Z)
  ∧ (∀ before seed after, track_ids = before ++ seed :: after →
       seed_rows self seed = [] →
       result = eval (get_similar_tracks before n_per_track) self ++
                eval (get_similar_tracks after n_per_track) self).
Proof.
  intros result. unfold result, eval.
  rewrite get_similar_tracks_run. simpl.
  split; [done|]. split; [by apply length_concat_seed_contribution|].
  intros before seed after -> Hrows.
  rewrite !get_similar_tracks_run. simpl.
  rewrite fmap_app, concat_app. simpl.
  by rewrite (seed_contribution_no_rows _ _ _ Hrows).
Qed.

End SimilarTracks.

(** ** Stable sorting, and why it is the only one that keeps ties in place *)

Section Ties.
Context {A : Type} (key : A → Q).

Lemma insert_at_stable_filter (s : Q) (x : A) (l : list A) :
  filter (λ r, (key r == s)%Q) (insert_at (stop_stable key) x l) =
  filter (λ r, (key r == s)%Q) (x :: l).
Proof.
  induction l as [|y l IH]; simpl; [done|].
  destruct (stop_stable key x y) eqn:E; [done|].
  rewrite (filter_cons _ y), IH, (filter_cons _ x), (filter_cons _ x),
    (filter_cons _ y).
  destruct (decide (key y == s)%Q) as [Hy|Hy],
    (decide (key x == s)%Q) as [Hx|Hx]; try done.
  exfalso. unfold stop_stable in E.
  assert (Hle : (key y <= key x)%Q) by (rewrite Hy, Hx; apply Qle_refl).
  apply Qle_bool_iff in Hle. congruence.
Qed.

Lemma stable_sort_desc_ties (l : list A) :
  ties_in_stored_order key l (stable_sort_desc key l).
Proof.
  intros s. induction l as [|x l IH]; [done|].
  unfold stable_sort_desc in *. simpl.
  rewrite insert_at_stable_filter, !(filter_cons _ x), IH. done.
Qed.


End Ties.




(** ** Determinism and the tables *)

Section Frame.
Context `{SortValues}.


(** C9. Each of the four operations leaves the engine, and so each of its
    three tables, as it found it. *)
Theorem operations_leave_tables_unchanged
    (self : RecommendationEngine) (user_id : string) (n : Z)
    (track_ids : list string) (n_per_track : Z) (k : Z)
    (online_history : list string) (n_recommendations : Z) :
  let unchanged (after : RecommendationEngine) :=
    after = self
    ∧ personal_recs after = personal_recs self
    ∧ similar_tracks after = similar_tracks self
    ∧ top_popular after = top_popular self in
  unchanged (exec (get_personal_recommendations user_id n) self)
  ∧ unchanged (exec (get_similar_tracks track_ids n_per_track) self)
  ∧ unchanged (exec (get_top_popular k) self)
  ∧ unchanged (exec (mix_recommendations user_id online_history n_recommendations) self).
Proof.
  intros unchanged. unfold unchanged, exec.
  rewrite get_personal_recommendations_run, get_similar_tracks_run,
    get_top_popular_run, mix_recommendations_run.
  simpl. done.
Qed.

End Frame.

(** ** The gate of the popularity tier *)

(** The popular tracks are consulted only on the length of the list of
    personal and similar tracks as it stands, before any track is removed. *)
Lemma all_recommendations_gate
    (personal similar_online top online_history : list string) (n : Z) :
  let listed :=
    if decide (online_history ≠ []) then personal ++ similar_online else personal in
  (n ≤ Z.of_nat (length listed))%Z →
  all_recommendations personal similar_online top online_history n = listed.
Proof.
  intros listed Hn. unfold all_recommendations. simpl.
  fold listed. by rewrite decide_False by lia.
Qed.


(** ** The scenarios of the design document, and other concrete requests *)

Section Scenarios.
Local Open Scope string_scope.
Local Open Scope list_scope.

Example scenario_empty_everywhere :
  eval (mix_recommendations (H:=stable_sort_values) "u" [] 10) engine_empty =
  ([], "top_popular_only").
Proof. vm_compute. reflexivity. Qed.

Example scenario_personal_only :
  eval (mix_recommendations (H:=stable_sort_values) "u1" [] 5)
    engine_scenario_personal =
  (["t1"; "t2"; "p1"; "p2"; "p3"], "personal_only").
Proof. vm_compute. reflexivity. Qed.

Example scenario_online_history :
  eval (mix_recommendations (H:=stable_sort_values) "u" ["t5"] 5)
    engine_scenario_online =
  (["t6"; "t7"; "p1"; "p2"], "online_history + top_popular").
Proof. vm_compute. reflexivity. Qed.

(** The label names the sources that were available, also when nothing
    of them is left in the list. *)
Example label_with_empty_list :
  eval (mix_recommendations (H:=stable_sort_values) "u" ["t1"] 1) engine_played =
  ([], "online_history + personal").
Proof. vm_compute. reflexivity. Qed.

(** A negative request: with [n_recommendations = -1] the slice drops the
    last candidate and keeps the rest. *)
Lemma mix_negative_request_nonempty :
  let result :=
    (eval (mix_recommendations (H:=stable_sort_values) "u" ["a"; "d"] (-1))
       engine_two_seeds).1 in
  result = ["b"] ∧ ¬ (Z.of_nat (length result) ≤ -1)%Z.
Proof. split; by_evaluation. Qed.

Lemma mix_length_bound_witness :
  (0 ≤ 2)%Z ∧
  (Z.of_nat (length
     (eval (mix_recommendations (H:=stable_sort_values) "u" [] 2)
        engine_popular_abc).1) ≤ 2)%Z.
Proof.
  split; [lia|].
  apply (@mix_length_bound stable_sort_values engine_popular_abc "u" [] 2). lia.
Defined.

(** The table holds a track outside the history, but not among its first
    [2 * n_recommendations] rows. *)
Lemma mix_fallback_beyond_pool :
  let self := engine_popular_abc in
  let online_history := ["a"; "b"] in
  let n := 1%Z in
  let result :=
    (eval (mix_recommendations (H:=stable_sort_values) "u" online_history n) self).1 in
  eval (get_personal_recommendations (H:=stable_sort_values) "u" n) self = []
  ∧ eval (get_similar_tracks (H:=stable_sort_values) online_history 2) self = []
  ∧ (n ≤ Z.of_nat (length
            (filter (λ r, Popular.track_id r ∉ online_history) (top_popular self))))%Z
  ∧ result = []
  ∧ Z.of_nat (length result) ≠ n.
Proof. repeat split; by_evaluation. Qed.

(** Two rows outside the history, but of the same track. *)
Example mix_fallback_repeated_track :
  (2 ≤ Z.of_nat (length (filter (λ r, Popular.track_id r ∉ @nil string)
                           (top_popular engine_popular_twice))))%Z
  ∧ (eval (mix_recommendations (H:=stable_sort_values) "u" [] 2)
       engine_popular_twice).1 = ["c"].
Proof. split; by_evaluation. Qed.

Lemma mix_fallback_completeness_witness :
  (eval (mix_recommendations (H:=stable_sort_values) "u" ["b"] 2)
     engine_popular_abc).1 = ["a"; "c"]
  ∧ Z.of_nat (length
      (eval (mix_recommendations (H:=stable_sort_values) "u" ["b"] 2)
         engine_popular_abc).1) = 2%Z.
Proof.
  apply (@mix_fallback_completeness stable_sort_values engine_popular_abc "u" ["b"] 2).
  - vm_compute. reflexivity.
  - vm_compute. reflexivity.
  - lia.
  - by_evaluation.
Defined.

(** With [n_per_track = -1] a seed with two edges contributes one track. *)
Lemma get_similar_tracks_negative_fanout :
  let result :=
    eval (get_similar_tracks (H:=stable_sort_values) ["a"] (-1)) engine_one_seed in
  result = ["b"]
  ∧ ¬ (Z.of_nat (length result) ≤ Z.of_nat (length ["a"]) * -1)%Z.
Proof. split; by_evaluation. Qed.

Lemma get_similar_tracks_per_seed_witness :
  (0 ≤ 1)%Z ∧
  eval (get_similar_tracks (H:=stable_sort_values) ["z"; "a"] 1) engine_one_seed = ["b"]
  ∧ (Z.of_nat (length
       (eval (get_similar_tracks (H:=stable_sort_values) ["z"; "a"] 1)
          engine_one_seed)) ≤ 2 * 1)%Z.
Proof.
  split; [lia|].
  destruct (@get_similar_tracks_per_seed stable_sort_values engine_one_seed
              ["z"; "a"] 1) as (Hres & Hlen & _).
  split; [exact Hres|exact (Hlen ltac:(lia))].
Defined.


End Scenarios.

(** * Further properties of the service *)

(** ** Slices and sorted frames, membership *)

Lemma slice_to_prefix {A} (n : Z) (l : list A) : slice_to n l `prefix_of` l.
Proof. unfold slice_to. case_decide; apply prefix_take. Qed.

Lemma elem_of_slice_to {A} (n : Z) (l : list A) (x : A) :
  x ∈ slice_to n l → x ∈ l.
Proof. apply sublist_subseteq, slice_to_sublist. Qed.

Lemma length_slice_to_min {A} (n : Z) (l : list A) :
  (0 ≤ n)%Z → length (slice_to n l) = min (Z.to_nat n) (length l).
Proof. intros Hn. by rewrite slice_to_nonneg, length_take. Qed.

Lemma slice_to_all {A} (n : Z) (l : list A) :
  (Z.of_nat (length l) ≤ n)%Z → slice_to n l = l.
Proof. intros Hn. rewrite slice_to_nonneg by lia. apply take_ge. lia. Qed.

Lemma slice_to_slice_to {A} (n m : Z) (l : list A) :
  (0 ≤ n)%Z → (n ≤ m)%Z → slice_to n (slice_to m l) = slice_to n l.
Proof.
  intros Hn Hm. rewrite !slice_to_nonneg by lia.
  rewrite take_take. f_equal. lia.
Qed.

Lemma elem_of_concat_fmap {A B} (f : A → list B) (l : list A) (y : B) :
  y ∈ concat (f <$> l) ↔ ∃ x, x ∈ l ∧ y ∈ f x.
Proof.
  induction l as [|a l IH]; simpl.
  - split; [by intros ?%elem_of_nil|]. by intros (x & ?%elem_of_nil & _).
  - rewrite elem_of_app, IH. split.
    + intros [Hy|(x & Hx & Hy)]; [exists a|exists x]; by rewrite elem_of_cons; auto.
    + intros (x & [->|Hx]%elem_of_cons & Hy); [by left|right; eauto].
Qed.

Section Readers.
Context `{SortValues}.

Lemma elem_of_sort_values {A} (key : A → Q) (l : list A) (x : A) :
  x ∈ sort_values key l ↔ x ∈ l.
Proof. by rewrite sort_values_perm. Qed.

(** Where the tracks of the three readers come from. *)
Lemma elem_of_get_personal_recommendations self user_id n track :
  track ∈ eval (get_personal_recommendations user_id n) self →
  ∃ r, r ∈ personal_recs self ∧ Personal.user_id r = user_id
       ∧ Personal.track_id r = track.
Proof.
  unfold eval. rewrite get_personal_recommendations_run. simpl.
  intros (r & -> & Hr%elem_of_slice_to)%list_elem_of_fmap.
  apply elem_of_sort_values, list_elem_of_filter in Hr as [Hu Hr]. eauto.
Qed.

Lemma elem_of_get_similar_tracks self track_ids n_per_track track :
  track ∈ eval (get_similar_tracks track_ids n_per_track) self →
  ∃ r, r ∈ similar_tracks self ∧ Similar.track_id r ∈ track_ids
       ∧ Similar.similar_track_id r = track.
Proof.
  unfold eval. rewrite get_similar_tracks_run. simpl.
  intros (seed & Hseed & Ht)%elem_of_concat_fmap.
  unfold seed_contribution in Ht.
  apply list_elem_of_fmap in Ht as (r & -> & Hr%elem_of_slice_to).
  apply elem_of_sort_values, list_elem_of_filter in Hr as [Hs Hr].
  exists r. by rewrite Hs.
Qed.

Lemma elem_of_get_top_popular self n track :
  track ∈ eval (get_top_popular n) self →
  ∃ r, r ∈ top_popular self ∧ Popular.track_id r = track.
Proof.
  unfold eval. rewrite get_top_popular_run. simpl.
  intros (r & -> & Hr%elem_of_slice_to)%list_elem_of_fmap. eauto.
Qed.

(** X1. [get_personal_recommendations] returns only tracks of rows of the
    asked user; a user without rows gets the empty list, for every [n]. *)
Theorem get_personal_recommendations_own_rows
    (self : RecommendationEngine) (user_id : string) (n : Z) :
  let result := eval (get_personal_recommendations user_id n) self in
  Forall (λ track, ∃ r, r ∈ personal_recs self ∧ Personal.user_id r = user_id
                        ∧ Personal.track_id r = track) result
  ∧ (Forall (λ r, Personal.user_id r ≠ user_id) (personal_recs self) ↔
     ∀ k, eval (get_personal_recommendations user_id k) self = []).
Proof.
  intros result. split.
  - apply Forall_forall. intros track. apply elem_of_get_personal_recommendations.
  - split.
    + intros Hnone k. clear result.
      destruct (eval (get_personal_recommendations user_id k) self)
        as [|track l] eqn:E; [done|].
      destruct (elem_of_get_personal_recommendations self user_id k track)
        as (r & Hr & Hu & _); [rewrite E; left|].
      rewrite Forall_forall in Hnone. by destruct (Hnone r Hr).
    + intros Hempty. apply Forall_forall. intros r Hr Hu.
      specialize (Hempty (Z.of_nat (length (personal_recs self)))).
      unfold eval in Hempty. rewrite get_personal_recommendations_run in Hempty.
      simpl in Hempty. unfold DataFrame.head in Hempty.
      rewrite slice_to_all in Hempty.
      * apply fmap_nil_inv in Hempty.
        assert (Hin : r ∈ sort_values Personal.score (user_rows self user_id)).
        { apply elem_of_sort_values, list_elem_of_filter. done. }
        rewrite Hempty in Hin. by apply elem_of_nil in Hin.
      * rewrite length_sort_values. unfold user_rows.
        pose proof (length_filter (λ r, Personal.user_id r = user_id)
                      (personal_recs self)). lia.
Qed.

(** X2. For [n >= 0], [get_personal_recommendations] returns exactly
    [min(n, number of rows of the user)] tracks, and when [n] covers all the
    rows of the user the result is a rearrangement of all their tracks. *)
Theorem get_personal_recommendations_length
    (self : RecommendationEngine) (user_id : string) (n : Z) :
  (0 ≤ n)%Z →
  let result := eval (get_personal_recommendations user_id n) self in
  length result = min (Z.to_nat n) (length (user_rows self user_id))
  ∧ ((Z.of_nat (length (user_rows self user_id)) ≤ n)%Z →
     result ≡ₚ Personal.track_id <$> user_rows self user_id).
Proof.
  intros Hn result. unfold result, eval.
  rewrite get_personal_recommendations_run. simpl. unfold DataFrame.head. split.
  - by rewrite length_fmap, length_slice_to_min, length_sort_values.
  - intros Hall. rewrite slice_to_all by (by rewrite length_sort_values).
    by rewrite sort_values_perm.
Qed.

(** X3. [get_top_popular n] is a prefix of the track column of the
    popularity table, for every [n]; for [0 <= n <= m] it is the first [n]
    tracks of [get_top_popular m], and its length is [min(n, rows)]. *)
Theorem get_top_popular_prefix
    (self : RecommendationEngine) (n m : Z) :
  (0 ≤ n)%Z → (n ≤ m)%Z →
  eval (get_top_popular n) self `prefix_of` (Popular.track_id <$> top_popular self)
  ∧ eval (get_top_popular n) self = take (Z.to_nat n) (eval (get_top_popular m) self)
  ∧ length (eval (get_top_popular n) self) =
      min (Z.to_nat n) (length (top_popular self)).
Proof.
  intros Hn Hm. unfold eval. rewrite !get_top_popular_run. simpl.
  unfold DataFrame.head. split; [|split].
  - rewrite slice_to_nonneg, fmap_take by done. apply prefix_take.
  - rewrite <- fmap_take, <- (slice_to_nonneg n) by done.
    by rewrite slice_to_slice_to.
  - by rewrite length_fmap, length_slice_to_min.
Qed.

(** X4. [get_similar_tracks] returns only targets of edges whose source is
    one of the given seeds; without such an edge the result is empty. *)
Theorem get_similar_tracks_only_seed_edges
    (self : RecommendationEngine) (track_ids : list string) (n_per_track : Z) :
  let result := eval (get_similar_tracks track_ids n_per_track) self in
  Forall (λ track, ∃ r, r ∈ similar_tracks self ∧ Similar.track_id r ∈ track_ids
                        ∧ Similar.similar_track_id r = track) result
  ∧ (Forall (λ r, Similar.track_id r ∉ track_ids) (similar_tracks self) →
     result = []).
Proof.
  intros result. split.
  - apply Forall_forall. intros track. apply elem_of_get_similar_tracks.
  - intros Hnone. destruct result as [|track l] eqn:E; [done|].
    destruct (elem_of_get_similar_tracks self track_ids n_per_track track)
      as (r & Hr & Hs & _); [fold result; rewrite E; left|].
    rewrite Forall_forall in Hnone. by destruct (Hnone r Hr).
Qed.

(** X5. For [n_per_track >= 0] the length of [get_similar_tracks] is the sum
    over the seeds, repeated seeds counted each time, of
    [min(n_per_track, number of edges of the seed)]. *)
Theorem get_similar_tracks_length
    (self : RecommendationEngine) (track_ids : list string) (n_per_track : Z) :
  (0 ≤ n_per_track)%Z →
  length (eval (get_similar_tracks track_ids n_per_track) self) =
  sum_list ((λ seed, min (Z.to_nat n_per_track) (length (seed_rows self seed)))
            <$> track_ids).
Proof.
  intros Hn. unfold eval. rewrite get_similar_tracks_run. simpl.
  induction track_ids as [|seed l IH]; [done|].
  rewrite !fmap_cons, concat_cons, length_app, IH. simpl. f_equal.
  unfold seed_contribution, DataFrame.head.
  by rewrite length_fmap, length_slice_to_min, length_sort_values.
Qed.

End Readers.

(** ** The steps of the mixer, one by one *)

Lemma filter_all {A} (P : A → Prop) `{!∀ x, Decision (P x)} (l : list A) :
  Forall P l → filter P l = l.
Proof.
  induction 1 as [|x l Hx Hl IH]; [done|].
  by rewrite filter_cons_True, IH.
Qed.

Lemma first_occurrences_NoDup (l : list string) :
  NoDup l → first_occurrences l = l.
Proof.
  induction 1 as [|x l Hx Hl IH]; simpl; [done|].
  rewrite IH, filter_all; [done|].
  apply Forall_forall. intros y Hy ->. done.
Qed.

Lemma first_occurrences_app (l k : list string) :
  first_occurrences (l ++ k) =
  first_occurrences l ++ filter (λ y, y ∉ l) (first_occurrences k).
Proof.
  induction l as [|x l IH]; simpl.
  - by rewrite filter_not_elem_of_nil.
  - rewrite IH, filter_app, list_filter_filter. do 2 f_equal.
    apply list_filter_iff. intros y. rewrite not_elem_of_cons. tauto.
Qed.

Lemma all_recommendations_listed
    (personal similar_online top online_history : list string) (n : Z) :
  all_recommendations personal similar_online top online_history n =
  listed personal similar_online online_history ++
  (if decide (Z.of_nat (length (listed personal similar_online online_history)) < n)%Z
   then filter (λ track, track ∉ listed personal similar_online online_history) top
   else []).
Proof.
  unfold all_recommendations, listed. simpl.
  case_decide; [done|]. by rewrite app_nil_r.
Qed.

(** X6. The deduplication loop returns a list without repetition that has
    the elements of its input, in the order of the input; it changes
    nothing on a list without repetition, so running it twice is running it
    once. *)
Theorem unique_recommendations_spec (all : list string) :
  let unique := unique_recommendations all in
  NoDup unique
  ∧ (∀ track, track ∈ unique ↔ track ∈ all)
  ∧ unique `sublist_of` all
  ∧ unique_recommendations unique = unique
  ∧ (NoDup all → unique = all).
Proof.
  intros unique. unfold unique.
  rewrite !unique_recommendations_first_occurrences.
  split; [apply NoDup_first_occurrences|].
  split; [intros track; apply elem_of_first_occurrences|].
  split; [apply first_occurrences_sublist|].
  split; [|apply first_occurrences_NoDup].
  apply first_occurrences_NoDup, NoDup_first_occurrences.
Qed.

Section Pipeline.
Context `{SortValues}.

Lemma mix_recommendations_result user_id online_history n self :
  (eval (mix_recommendations user_id online_history n) self).1 =
  slice_to n
    (filter (λ track, track ∉ online_history)
       (first_occurrences
          (all_recommendations
             (eval (get_personal_recommendations user_id n) self)
             (eval (get_similar_tracks online_history 2) self)
             (eval (get_top_popular (n * 2)) self) online_history n))).
Proof.
  unfold eval at 1. rewrite mix_recommendations_run. simpl.
  by rewrite final_recommendations_filter, unique_recommendations_first_occurrences.
Qed.

(** X7. For [n_recommendations >= 0] the result begins with the personal
    tracks, followed when there is a history by the similar tracks, each
    kept once and without the history, as far as the requested length goes:
    popular tracks only come after them. *)
Theorem mix_priority_order
    (self : RecommendationEngine) (user_id : string)
    (online_history : list string) (n_recommendations : Z) :
  (0 ≤ n_recommendations)%Z →
  let personal := eval (get_personal_recommendations user_id n_recommendations) self in
  let similar_online := eval (get_similar_tracks online_history 2) self in
  let result :=
    (eval (mix_recommendations user_id online_history n_recommendations) self).1 in
  take (Z.to_nat n_recommendations)
    (filter (λ track, track ∉ online_history) (first_occurrences personal))
    `prefix_of` result
  ∧ take (Z.to_nat n_recommendations)
      (filter (λ track, track ∉ online_history)
         (first_occurrences (listed personal similar_online online_history)))
      `prefix_of` result.
Proof.
  intros Hn personal similar_online result.
  assert (Hres : ∀ front back,
    all_recommendations personal similar_online
      (eval (get_top_popular (n_recommendations * 2)) self)
      online_history n_recommendations = front ++ back →
    take (Z.to_nat n_recommendations)
      (filter (λ track, track ∉ online_history) (first_occurrences front))
      `prefix_of` result).
  { intros front back Hall. unfold result.
    rewrite mix_recommendations_result. fold personal similar_online.
    rewrite Hall, first_occurrences_app, filter_app, slice_to_nonneg, take_app by done.
    by apply prefix_app_r. }
  split.
  - rewrite all_recommendations_listed in Hres. unfold listed in Hres at 1.
    destruct (decide (online_history ≠ [])).
    + eapply Hres. by rewrite <- app_assoc.
    + by eapply Hres.
  - eapply Hres. apply all_recommendations_listed.
Qed.

(** X8. Every track that [mix_recommendations] returns is the track of a
    personal row of the user, or the target of a similarity edge whose
    source is in the history, or the track of a popularity row. *)
Theorem mix_returns_table_tracks
    (self : RecommendationEngine) (user_id : string)
    (online_history : list string) (n_recommendations : Z) :
  Forall (λ track,
      (∃ r, r ∈ personal_recs self ∧ Personal.user_id r = user_id
            ∧ Personal.track_id r = track)
      ∨ (∃ r, r ∈ similar_tracks self ∧ Similar.track_id r ∈ online_history
              ∧ Similar.similar_track_id r = track)
      ∨ (∃ r, r ∈ top_popular self ∧ Popular.track_id r = track))
    (eval (mix_recommendations user_id online_history n_recommendations) self).1.
Proof.
  apply Forall_forall. intros track.
  rewrite mix_recommendations_result.
  intros Ht%elem_of_slice_to. apply list_elem_of_filter in Ht as [_ Ht].
  rewrite elem_of_first_occurrences in Ht.
  rewrite all_recommendations_listed in Ht. unfold listed in Ht.
  assert (Hlisted : ∀ l,
    track ∈ (if decide (online_history ≠ [])
             then eval (get_personal_recommendations user_id n_recommendations) self
                  ++ eval (get_similar_tracks online_history 2) self
             else eval (get_personal_recommendations user_id n_recommendations) self)
            ++ l →
    track ∈ eval (get_personal_recommendations user_id n_recommendations) self
    ∨ track ∈ eval (get_similar_tracks online_history 2) self
    ∨ track ∈ l).
  { intros l. case_decide; rewrite !elem_of_app; tauto. }
  apply Hlisted in Ht as [Ht|[Ht|Ht]].
  - left. by eapply elem_of_get_personal_recommendations.
  - right; left. by eapply elem_of_get_similar_tracks.
  - right; right. eapply elem_of_get_top_popular.
    repeat case_decide;
      first [ by apply elem_of_nil in Ht
            | by apply list_elem_of_filter in Ht as [_ Ht] ].
Qed.

(** X9. For [n_recommendations >= 0], a result shorter than requested has
    left nothing out: it holds every personal and (with a history) similar
    track that is not in the history, and, when those were fewer than
    requested, every track of the popularity pool that is not in the
    history. *)
Theorem mix_short_result_is_complete
    (self : RecommendationEngine) (user_id : string)
    (online_history : list string) (n_recommendations : Z) :
  let personal := eval (get_personal_recommendations user_id n_recommendations) self in
  let similar_online := eval (get_similar_tracks online_history 2) self in
  let top := eval (get_top_popular (n_recommendations * 2)) self in
  let result :=
    (eval (mix_recommendations user_id online_history n_recommendations) self).1 in
  (0 ≤ n_recommendations)%Z →
  (Z.of_nat (length result) < n_recommendations)%Z →
  (∀ track, track ∈ listed personal similar_online online_history →
            track ∉ online_history → track ∈ result)
  ∧ ((Z.of_nat (length (listed personal similar_online online_history))
      < n_recommendations)%Z →
     ∀ track, track ∈ top → track ∉ online_history → track ∈ result).
Proof.
  intros personal similar_online top result Hn Hshort.
  assert (Hres : ∀ track,
    track ∈ all_recommendations personal similar_online top online_history
              n_recommendations →
    track ∉ online_history → track ∈ result).
  { intros track Hall Hh. revert Hshort. unfold result.
    rewrite mix_recommendations_result. fold personal similar_online top.
    rewrite slice_to_nonneg, length_take by done. intros Hshort.
    rewrite take_ge by lia.
    apply list_elem_of_filter. split; [done|]. by rewrite elem_of_first_occurrences. }
  split.
  - intros track Ht. apply Hres. rewrite all_recommendations_listed.
    apply elem_of_app. by left.
  - intros Hfew track Ht. apply Hres. rewrite all_recommendations_listed.
    rewrite decide_True by done. apply elem_of_app.
    destruct (decide (track ∈ listed personal similar_online online_history));
      [by left|right]. by apply list_elem_of_filter.
Qed.

End Pipeline.

(** ** Where the fallback is decided *)

Section Gate.
Context `{SortValues}.
Local Open Scope string_scope.
Local Open Scope list_scope.

(** C10. The popularity tier is decided on the number of personal and
    similar candidates as listed, before deduplication and history
    exclusion.  When that number reaches [n_recommendations] the result is
    made of the listed candidates alone, however few of them are left after
    deduplication and history exclusion; when it is smaller, the popular
    tracks not yet listed are appended before deduplication.  And there is a
    request for which the popularity pool (and so the table) holds at least
    [n_recommendations] tracks outside the history, the personal
    recommendations alone number [n_recommendations] and all lie in the
    history, and [mix_recommendations] returns the empty list. *)
Theorem fallback_gated_before_filtering :
  (∀ (self : RecommendationEngine) (user_id : string)
     (online_history : list string) (n_recommendations : Z),
     let personal :=
       eval (get_personal_recommendations user_id n_recommendations) self in
     let similar_online := eval (get_similar_tracks online_history 2) self in
     let top := eval (get_top_popular (n_recommendations * 2)) self in
     let raw := listed personal similar_online online_history in
     let result :=
       (eval (mix_recommendations user_id online_history n_recommendations) self).1 in
     ((n_recommendations ≤ Z.of_nat (length raw))%Z →
      result = slice_to n_recommendations
                 (filter (λ track, track ∉ online_history) (first_occurrences raw)))
     ∧ ((Z.of_nat (length raw) < n_recommendations)%Z →
        result = slice_to n_recommendations
                   (filter (λ track, track ∉ online_history)
                      (first_occurrences
                         (raw ++ filter (λ track, track ∉ raw) top)))))
  ∧ ∃ (self : RecommendationEngine) (user_id : string)
      (online_history : list string) (n_recommendations : Z),
      let personal :=
        eval (get_personal_recommendations user_id n_recommendations) self in
      let top := eval (get_top_popular (n_recommendations * 2)) self in
      (0 < n_recommendations)%Z
      ∧ (n_recommendations ≤
           Z.of_nat (length (filter (λ track, track ∉ online_history)
                               (first_occurrences top))))%Z
      ∧ (n_recommendations ≤
           Z.of_nat (length (filter (λ track, track ∉ online_history)
                               (first_occurrences
                                  (Popular.track_id <$> top_popular self)))))%Z
      ∧ (n_recommendations ≤ Z.of_nat (length personal))%Z
      ∧ Forall (λ track, track ∈ online_history) personal
      ∧ (eval (mix_recommendations user_id online_history n_recommendations) self).1
        = [].
Proof.
  split.
  - intros self user_id online_history n personal similar_online top raw result.
    unfold result. rewrite mix_recommendations_result.
    fold personal similar_online top.
    rewrite all_recommendations_listed. fold raw.
    split; intros Hraw.
    + by rewrite decide_False, app_nil_r by lia.
    + by rewrite decide_True by lia.
  - exists engine_played, "u", ["t1"], 1%Z.
    assert (Hpersonal :
      eval (get_personal_recommendations "u" 1) engine_played = ["t1"]).
    { unfold eval. rewrite get_personal_recommendations_run. simpl.
      replace (user_rows engine_played "u") with [Personal.Row "u" "t1" (9#10)]
        by (vm_compute; reflexivity).
      by rewrite sort_values_singleton. }
    assert (Hsimilar : eval (get_similar_tracks ["t1"] 2) engine_played = []).
    { unfold eval. rewrite get_similar_tracks_run. simpl.
      by rewrite seed_contribution_no_rows. }
    assert (Hmix : eval (mix_recommendations "u" ["t1"] 1) engine_played =
                   ([], "online_history + personal")).
    { unfold eval at 1. rewrite mix_recommendations_run. cbv zeta.
      rewrite Hpersonal, Hsimilar. vm_compute. reflexivity. }
    cbv zeta. rewrite Hpersonal, Hmix.
    repeat split; try by_evaluation.
    repeat constructor.
Qed.

End Gate.

(** ** What the answer depends on *)

Lemma concat_fmap_nil {A B} (f : A → list B) (l : list A) :
  Forall (λ x, f x = []) l → concat (f <$> l) = [].
Proof.
  induction 1 as [|x l Hx Hl IH]; [done|].
  by rewrite fmap_cons, concat_cons, Hx, IH.
Qed.

Section Locality.
Context `{SortValues}.

Lemma mix_recommendations_eval self user_id online_history n :
  eval (mix_recommendations user_id online_history n) self =
  (slice_to n
     (final_recommendations
        (unique_recommendations
           (all_recommendations
              (eval (get_personal_recommendations user_id n) self)
              (eval (get_similar_tracks online_history 2) self)
              (eval (get_top_popular (n * 2)) self) online_history n))
        online_history),
   strategy online_history (eval (get_personal_recommendations user_id n) self)).
Proof. unfold eval at 1. by rewrite mix_recommendations_run. Qed.

Lemma mix_recommendations_ext self self' user_id online_history n :
  eval (get_personal_recommendations user_id n) self' =
    eval (get_personal_recommendations user_id n) self →
  eval (get_similar_tracks online_history 2) self' =
    eval (get_similar_tracks online_history 2) self →
  eval (get_top_popular (n * 2)) self' = eval (get_top_popular (n * 2)) self →
  eval (mix_recommendations user_id online_history n) self' =
  eval (mix_recommendations user_id online_history n) self.
Proof.
  intros Hp Hs Ht. by rewrite !mix_recommendations_eval, Hp, Hs, Ht.
Qed.

(** X10. On an engine whose three tables are empty, [mix_recommendations]
    returns the empty list for every user, history and requested length,
    with the label of a request without personal recommendations. *)
Theorem mix_on_empty_tables
    (user_id : string) (online_history : list string) (n_recommendations : Z) :
  eval (mix_recommendations user_id online_history n_recommendations)
    (Engine [] [] []) =
  ([], if nonempty online_history then "online_history + top_popular"%string
       else "top_popular_only"%string).
Proof.
  assert (Hp : eval (get_personal_recommendations user_id n_recommendations)
                 (Engine [] [] []) = []).
  { unfold eval. rewrite get_personal_recommendations_run.
    unfold user_rows, DataFrame.head. cbn [fst personal_recs].
    by rewrite filter_nil, sort_values_nil, slice_to_nil. }
  assert (Hs : eval (get_similar_tracks online_history 2) (Engine [] [] []) = []).
  { unfold eval. rewrite get_similar_tracks_run. cbn [fst].
    apply concat_fmap_nil, Forall_forall. intros seed _.
    by apply seed_contribution_no_rows. }
  assert (Ht : eval (get_top_popular (n_recommendations * 2)) (Engine [] [] []) = []).
  { unfold eval. rewrite get_top_popular_run.
    unfold DataFrame.head. cbn [fst top_popular]. by rewrite slice_to_nil. }
  rewrite mix_recommendations_eval.
  rewrite Hp, Hs, Ht, all_recommendations_fallback, strategy_strategy_table.
  replace (if decide (0 < n_recommendations)%Z then @nil string else [])
    with (@nil string) by (by case_decide).
  rewrite unique_recommendations_first_occurrences, final_recommendations_filter.
  cbn [first_occurrences]. rewrite filter_nil, slice_to_nil.
  by destruct online_history.
Qed.

(** X11. For [n_recommendations >= 0] the answer of [mix_recommendations]
    depends on the tables only through the personal rows of the user, the
    similarity edges whose source is in the history, and the first
    [2 * n_recommendations] popularity rows: all other rows can be removed
    without changing the list or the label. *)
Theorem mix_reads_only_relevant_rows
    (self : RecommendationEngine) (user_id : string)
    (online_history : list string) (n_recommendations : Z) :
  (0 ≤ n_recommendations)%Z →
  eval (mix_recommendations user_id online_history n_recommendations)
    {| personal_recs := user_rows self user_id;
       similar_tracks :=
         filter (λ r, Similar.track_id r ∈ online_history) (similar_tracks self);
       top_popular := DataFrame.head (n_recommendations * 2) (top_popular self) |} =
  eval (mix_recommendations user_id online_history n_recommendations) self.
Proof.
  intros Hn. apply mix_recommendations_ext; unfold eval.
  - rewrite !get_personal_recommendations_run. simpl. do 3 f_equal.
    unfold user_rows. simpl. rewrite list_filter_filter.
    apply list_filter_iff. tauto.
  - rewrite !get_similar_tracks_run. simpl. f_equal.
    apply list_fmap_ext. intros i seed Hseed%list_elem_of_lookup_2.
    unfold seed_contribution, seed_rows. simpl. do 3 f_equal.
    rewrite list_filter_filter. apply list_filter_iff.
    intros r. split; [tauto|]. intros Hr. split; [done|]. by rewrite Hr.
  - rewrite !get_top_popular_run. simpl. f_equal.
    unfold DataFrame.head. apply slice_to_slice_to; lia.
Qed.

End Locality.

(** ** The request handler *)

Lemma strategy_is_label (online_history personal : list string) :
  strategy online_history personal ∈
  ["online_history + personal"; "online_history + top_popular";
   "personal_only"; "top_popular_only"]%string.
Proof. unfold strategy. repeat case_decide; repeat constructor. Qed.

Section Handler.
Context `{SortValues}.

Lemma get_recommendations_run now request self :
  get_recommendations now request self =
  (match Request.online_history request with
   | None => HTTPException 500 len_of_None
   | Some online_history =>
     let result :=
       eval (mix_recommendations (Request.user_id request) online_history
               (Request.n_recommendations request)) self in
     Ok (Response.Make (Request.user_id request) result.1 result.2 now)
   end, self).
Proof.
  unfold get_recommendations. destruct (Request.online_history request); [|done].
  unfold mbind, M_bind, eval. by rewrite mix_recommendations_run.
Qed.

(** X13. Every response the handler returns echoes the request's [user_id]
    and carries the given timestamp; its recommendations are pairwise
    distinct, none of them is in the request's history, they are at most
    [n_recommendations] when that is not negative, and its strategy is one
    of the four labels. *)
Theorem get_recommendations_response
    (self : RecommendationEngine) (now : string) (request : Request.model)
    (body : Response.model) :
  eval (get_recommendations now request) self = Ok body →
  ∃ online_history,
    Request.online_history request = Some online_history
    ∧ Response.user_id body = Request.user_id request
    ∧ Response.timestamp body = now
    ∧ NoDup (Response.recommendations body)
    ∧ Forall (λ track, track ∉ online_history) (Response.recommendations body)
    ∧ ((0 ≤ Request.n_recommendations request)%Z →
       (Z.of_nat (length (Response.recommendations body))
        ≤ Request.n_recommendations request)%Z)
    ∧ Response.strategy body ∈
        ["online_history + personal"; "online_history + top_popular";
         "personal_only"; "top_popular_only"]%string.
Proof.
  unfold eval at 1. rewrite get_recommendations_run. simpl.
  destruct (Request.online_history request) as [h|]; [|done].
  intros [= <-]. exists h. simpl.
  split; [done|]. split; [done|]. split; [done|].
  rewrite mix_recommendations_result.
  split; [|split; [|split]].
  - eapply sublist_NoDup; [|apply slice_to_sublist].
    apply NoDup_filter, NoDup_first_occurrences.
  - apply Forall_forall. intros track Ht%elem_of_slice_to.
    by apply list_elem_of_filter in Ht as [? _].
  - apply length_slice_to_nonneg.
  - rewrite mix_recommendations_eval. simpl. apply strategy_is_label.
Qed.

End Handler.

(** ** Loading *)

Lemma load_recommendation_data_raised personal_als similar top :
  personal_als = Raised ∨ similar = Raised ∨ top = Raised →
  load_recommendation_data personal_als similar top = ([], [], []).
Proof.
  unfold load_recommendation_data.
  destruct personal_als, similar, top; try done; intros [?|[?|?]]; done.
Qed.

Section Service.
Context `{SortValues}.

(** X14. When one of the three reads of the loader raises, all three tables
    are empty, also those that were read, and the service answers every
    request that carries a history list with an empty list of
    recommendations, under the label of a request without personal
    recommendations. *)
Theorem service_without_data
    (personal_als : outcome (list Raw.personal_row))
    (similar : outcome (list Raw.similar_row))
    (top : outcome (list Raw.popular_row))
    (now : string) (request : Request.model) (online_history : list string) :
  personal_als = Raised ∨ similar = Raised ∨ top = Raised →
  Request.online_history request = Some online_history →
  engine personal_als similar top = Engine [] [] []
  ∧ eval (get_recommendations now request) (engine personal_als similar top) =
    Ok (Response.Make (Request.user_id request) []
          (if nonempty online_history then "online_history + top_popular"%string
           else "top_popular_only"%string) now).
Proof.
  intros Hraised Hhistory.
  assert (Hengine : engine personal_als similar top = Engine [] [] []).
  { unfold engine. by rewrite load_recommendation_data_raised. }
  split; [done|].
  unfold eval. rewrite get_recommendations_run, Hhistory, Hengine. simpl.
  rewrite mix_recommendations_eval.
  assert (Hp : ∀ n, eval (get_personal_recommendations (Request.user_id request) n)
                      (Engine [] [] []) = []).
  { intros n. unfold eval. rewrite get_personal_recommendations_run.
    unfold user_rows, DataFrame.head. cbn [fst personal_recs].
    by rewrite filter_nil, sort_values_nil, slice_to_nil. }
  assert (Hs : eval (get_similar_tracks online_history 2) (Engine [] [] []) = []).
  { unfold eval. rewrite get_similar_tracks_run. cbn [fst].
    apply concat_fmap_nil, Forall_forall. intros seed _.
    by apply seed_contribution_no_rows. }
  assert (Ht : ∀ n, eval (get_top_popular n) (Engine [] [] []) = []).
  { intros n. unfold eval. rewrite get_top_popular_run.
    unfold DataFrame.head. cbn [fst top_popular]. by rewrite slice_to_nil. }
  rewrite Hp, Hs, Ht, all_recommendations_fallback, strategy_strategy_table.
  replace (if decide (0 < Request.n_recommendations request)%Z
           then @nil string else []) with (@nil string) by (by case_decide).
  rewrite unique_recommendations_first_occurrences, final_recommendations_filter.
  cbn [first_occurrences fst snd]. rewrite filter_nil, slice_to_nil.
  by destruct online_history.
Qed.

End Service.

(** ** Identifiers after loading *)

Lemma slice_to_fmap {A B} (f : A → B) (n : Z) (l : list A) :
  slice_to n (f <$> l) = f <$> slice_to n l.
Proof. unfold slice_to. rewrite length_fmap. case_decide; by rewrite fmap_take. Qed.

(** [str] of an integer, on three samples. *)
Example astype_str_samples :
  astype_str (Raw.Int 0) = "0"%string
  ∧ astype_str (Raw.Int 1050) = "1050"%string
  ∧ astype_str (Raw.Int (-12)) = "-12"%string
  ∧ astype_str (Raw.Str "t7") = "t7"%string.
Proof. repeat split; vm_compute; reflexivity. Qed.

#[local] Instance astype_str_Int_inj : Inj (=) (=) (λ i, astype_str (Raw.Int i)).
Proof. intros i j Hij. simpl in Hij. by apply (inj pretty) in Hij. Qed.

Section Loaded.
Context `{SortValues}.

(** X15. On the engine built from three frames that were read,
    [get_top_popular n] is the string form of the identifiers of the first
    [n] rows of the popularity frame as read; when that frame's identifiers
    are integers without repetition, the returned strings are pairwise
    distinct. *)
Theorem get_top_popular_after_loading
    (personal_als : list Raw.personal_row) (similar : list Raw.similar_row)
    (top : list Raw.popular_row) (n : Z) :
  let loaded :=
    engine (Returned personal_als) (Returned similar) (Returned top) in
  eval (get_top_popular n) loaded =
    astype_str <$> (Raw.popular_id <$> slice_to n top)
  ∧ (∀ ids : list Z, Raw.popular_id <$> top = Raw.Int <$> ids → NoDup ids →
       NoDup (eval (get_top_popular n) loaded)).
Proof.
  intros loaded.
  assert (Hres : eval (get_top_popular n) loaded =
                 astype_str <$> (Raw.popular_id <$> slice_to n top)).
  { unfold eval. rewrite get_top_popular_run. unfold DataFrame.head. simpl.
    rewrite slice_to_fmap, <- !list_fmap_compose. done. }
  split; [done|]. intros ids Hids Hnodup. rewrite Hres.
  rewrite <- slice_to_fmap, Hids, slice_to_fmap, <- list_fmap_compose.
  apply (NoDup_fmap_2 (λ i, astype_str (Raw.Int i))).
  eapply sublist_NoDup; [done|apply slice_to_sublist].
Qed.

End Loaded.

(** ** The test runner *)

Lemma all_passed_true (results : list (string * bool)) :
  all_passed results = true ↔ Forall (λ r, r.2 = true) results.
Proof.
  unfold all_passed. rewrite bool_decide_eq_true.
  induction results as [|r l IH]; [by split|].
  rewrite filter_cons, Forall_cons.
  pose proof (length_filter (λ r : string * bool, r.2 = true) l) as Hle.
  destruct (decide (r.2 = true)) as [Hr|Hr]; simpl.
  - rewrite <- IH. split; [by intros [= ?]|]. intros [_ Hl]. by rewrite Hl.
  - split; [lia|]. by intros [? _].
Qed.

Section RunnerFacts.
Context {World : Type}.
Context (health_check test1 test2 test3 : World → bool * World).

(** X16. [run_all_tests] stops after a failed first health check, without
    running any test; otherwise it probes the health endpoint once more,
    runs the three tests in order, and succeeds exactly when these four
    probes all succeed.  The summary it uses counts the successes: the
    count equals the number of results exactly when every result is a
    success. *)
Theorem run_all_tests_spec (w : World) :
  let w1 := (health_check w).2 in
  let w2 := (health_check w1).2 in
  let w3 := (test1 w2).2 in
  let w4 := (test2 w3).2 in
  let w5 := (test3 w4).2 in
  run_all_tests health_check test1 test2 test3 w =
    (if (health_check w).1
     then ((health_check w1).1 && (test1 w2).1 && (test2 w3).1 && (test3 w4).1, w5)
     else (false, w1))
  ∧ ∀ results, all_passed results = true ↔ Forall (λ r, r.2 = true) results.
Proof.
  intros w1 w2 w3 w4 w5. split; [|apply all_passed_true].
  unfold run_all_tests, w5, w4, w3, w2, w1.
  destruct (health_check w) as [[] v1]; simpl; [|done].
  destruct (health_check v1) as [r0 v2]; simpl.
  destruct (test1 v2) as [r1 v3]; simpl.
  destruct (test2 v3) as [r2 v4]; simpl.
  destruct (test3 v4) as [r3 v5]; simpl.
  by destruct r0, r1, r2, r3.
Qed.

End RunnerFacts.

(** ** The further properties on concrete tables *)

Section FurtherScenarios.
Local Open Scope string_scope.
Local Open Scope list_scope.

Lemma get_personal_recommendations_length_witness :
  (0 ≤ 1)%Z
  ∧ length (eval (get_personal_recommendations (H:=stable_sort_values) "u1" 1)
              engine_scenario_personal) = 1.
Proof.
  split; [lia|].
  exact (proj1 (@get_personal_recommendations_length stable_sort_values
                  engine_scenario_personal "u1" 1 ltac:(lia))).
Defined.

Lemma get_top_popular_prefix_witness :
  (0 ≤ 1)%Z ∧ (1 ≤ 2)%Z
  ∧ eval (get_top_popular 1) engine_popular_abc =
    take 1 (eval (get_top_popular 2) engine_popular_abc).
Proof.
  split; [lia|]. split; [lia|].
  exact (proj1 (proj2 (get_top_popular_prefix engine_popular_abc 1 2
                         ltac:(lia) ltac:(lia)))).
Defined.

Lemma get_similar_tracks_length_witness :
  (0 ≤ 1)%Z
  ∧ length (eval (get_similar_tracks (H:=stable_sort_values) ["a"; "z"; "a"] 1)
              engine_one_seed) = 2.
Proof.
  split; [lia|].
  exact (@get_similar_tracks_length stable_sort_values engine_one_seed
           ["a"; "z"; "a"] 1 ltac:(lia)).
Defined.

Lemma mix_priority_order_witness :
  (0 ≤ 5)%Z
  ∧ ["t1"; "t2"] `prefix_of`
      (eval (mix_recommendations (H:=stable_sort_values) "u1" [] 5)
         engine_scenario_personal).1.
Proof.
  split; [lia|].
  exact (proj1 (@mix_priority_order stable_sort_values engine_scenario_personal
                  "u1" [] 5 ltac:(lia))).
Defined.

Lemma mix_short_result_is_complete_witness :
  (0 ≤ 5)%Z
  ∧ "t6" ∈ (eval (mix_recommendations (H:=stable_sort_values) "u" ["t5"] 5)
              engine_scenario_online).1
  ∧ "p2" ∈ (eval (mix_recommendations (H:=stable_sort_values) "u" ["t5"] 5)
              engine_scenario_online).1.
Proof.
  split; [lia|].
  destruct (@mix_short_result_is_complete stable_sort_values engine_scenario_online
              "u" ["t5"] 5 ltac:(lia) ltac:(by_evaluation)) as [Hlisted Hpool].
  split.
  - apply Hlisted; [vm_compute; repeat constructor|].
    intros Hin. apply list_elem_of_singleton in Hin. discriminate Hin.
  - apply Hpool; [by_evaluation|vm_compute; repeat constructor|].
    intros Hin. apply list_elem_of_singleton in Hin. discriminate Hin.
Defined.

Lemma mix_reads_only_relevant_rows_witness :
  (0 ≤ 1)%Z
  ∧ eval (mix_recommendations (H:=stable_sort_values) "u" ["t5"] 1)
      {| personal_recs := [];
         similar_tracks := similar_tracks engine_scenario_online;
         top_popular := [Popular.Row "t5" 9; Popular.Row "p1" 8] |} =
    eval (mix_recommendations (H:=stable_sort_values) "u" ["t5"] 1)
      engine_scenario_online.
Proof.
  split; [lia|].
  exact (@mix_reads_only_relevant_rows stable_sort_values engine_scenario_online
           "u" ["t5"] 1 ltac:(lia)).
Defined.

Lemma get_recommendations_response_witness :
  NoDup ["t1"; "t2"; "p1"; "p2"; "p3"]
  ∧ Forall (λ track, track ∉ @nil string) ["t1"; "t2"; "p1"; "p2"; "p3"].
Proof.
  destruct (@get_recommendations_response stable_sort_values
              engine_scenario_personal "2024-01-01T00:00:00"
              (Request.Make "u1" (Some []) 5)
              (Response.Make "u1" ["t1"; "t2"; "p1"; "p2"; "p3"] "personal_only"
                 "2024-01-01T00:00:00")
              ltac:(vm_compute; reflexivity))
    as (h & Hh & _ & _ & Hnodup & Hleak & _).
  injection Hh as <-. split; [exact Hnodup|exact Hleak].
Defined.

Lemma service_without_data_witness :
  eval (get_recommendations (H:=stable_sort_values) "2024-01-01T00:00:00"
          (Request.Make "u1" (Some ["t5"]) 5))
    (engine (Returned []) Raised (Returned [Raw.PopularRow (Raw.Int 7) 1])) =
  Ok (Response.Make "u1" [] "online_history + top_popular" "2024-01-01T00:00:00").
Proof.
  exact (proj2 (@service_without_data stable_sort_values
                  (Returned []) Raised (Returned [Raw.PopularRow (Raw.Int 7) 1])
                  "2024-01-01T00:00:00" (Request.Make "u1" (Some ["t5"]) 5) ["t5"]
                  (or_intror (or_introl eq_refl)) eq_refl)).
Defined.

End FurtherScenarios.
